(** * Ertis: generic resource endpoints and token endpoints

    A shallow embedding of [src/generics/api.py] (the auth gate
    [ensure_token_provided] and [GenericErtisApi.generate_endpoints] with its
    five generated handlers) and of [src/custom_api/tokens.py] (the
    [create_token] and [refresh_token] Flask views).

    Python values are JSON-like values; Python exceptions are an inductive
    type; a handler runs in a small writer/exception monad whose log records
    every call to an external collaborator (the security manager, the
    resource service, the token service), so that the order and the
    arguments of those calls can be stated. *)

From Stdlib Require Import String Ascii List ZArith Bool Lia.
Import ListNotations.
Open Scope string_scope.
Open Scope list_scope.
Set Warnings "-register-all".

(** ** Python values *)

Inductive json : Type :=
| JNull
| JBool (b : bool)
| JNum (z : Z)
| JStr (s : string)
| JArr (xs : list json)
| JObj (kvs : list (string * json)).

(** Lookup of a key in a dict (first binding). *)
Fixpoint assoc_get {A} (k : string) (kvs : list (string * A)) : option A :=
  match kvs with
  | [] => None
  | (k', v) :: rest => if String.eqb k k' then Some v else assoc_get k rest
  end.

(** Python truthiness: [not x] holds for None, False, 0, the empty string,
    [[]] and [{}]. *)
Definition py_truthy (v : json) : bool :=
  match v with
  | JNull => false
  | JBool b => b
  | JNum z => negb (Z.eqb z 0)
  | JStr s => negb (String.eqb s EmptyString)
  | JArr xs => match xs with [] => false | _ => true end
  | JObj kvs => match kvs with [] => false | _ => true end
  end.

(** ** Python exceptions *)

Inductive exn : Type :=
| ErtisError (err_code err_msg : string) (status_code : Z)
             (context : option (list (string * json)))
| UnboundLocalError (name : string)
| JSONDecodeError (msg : string)
| AttributeError (msg : string)
| KeyError (key : string)
| TypeError (msg : string)
| ExternalError (msg : string).

(** [except ValueError]: [json.JSONDecodeError] is a subclass of it. *)
Definition is_value_error (e : exn) : bool :=
  match e with JSONDecodeError _ => true | _ => false end.

Definition exn_str (e : exn) : string :=
  match e with
  | ErtisError _ m _ _ | JSONDecodeError m | AttributeError m
  | TypeError m | ExternalError m => m
  | UnboundLocalError n => "local variable '" ++ n ++ "' referenced before assignment"
  | KeyError k => k
  end.

Definition res (A : Type) : Type := (exn + A)%type.

(** [d.get(k)] on a value: only dicts have [get]. *)
Definition dict_get (d : json) (k : string) : res (option json) :=
  match d with
  | JObj kvs => inr (assoc_get k kvs)
  | _ => inl (AttributeError "object has no attribute 'get'")
  end.

(** [d.get(k, default)]. *)
Definition dict_get_default (d : json) (k : string) (default : json) : res json :=
  match dict_get d k with
  | inl e => inl e
  | inr None => inr default
  | inr (Some v) => inr v
  end.

(** [d[k]]. *)
Definition py_getitem (d : json) (k : string) : res json :=
  match d with
  | JObj kvs => match assoc_get k kvs with
                | Some v => inr v
                | None => inl (KeyError k)
                end
  | JArr _ => inl (TypeError "list indices must be integers or slices, not str")
  | _ => inl (TypeError "object is not subscriptable")
  end.

(** ** Strings: [str.split(' ')] and header lookup *)

Fixpoint split_chars (sep : ascii) (cur : list ascii) (s : list ascii)
  : list (list ascii) :=
  match s with
  | [] => [rev cur]
  | c :: s' =>
      if Ascii.eqb c sep then rev cur :: split_chars sep [] s'
      else split_chars sep (c :: cur) s'
  end.

(** [s.split(sep)] for a one-character separator: every occurrence of [sep]
    cuts, so empty pieces are kept ("a  b" gives ['a', '', 'b']). *)
Definition py_split (sep : ascii) (s : string) : list string :=
  map string_of_list_ascii (split_chars sep [] (list_ascii_of_string s)).

Definition ascii_lower (c : ascii) : ascii :=
  let n := nat_of_ascii c in
  if (65 <=? n)%nat && (n <=? 90)%nat then ascii_of_nat (n + 32)%nat else c.

Definition str_lower (s : string) : string :=
  string_of_list_ascii (map ascii_lower (list_ascii_of_string s)).

(** Werkzeug's [Headers.get]: case-insensitive, first match. *)
Fixpoint headers_get (hs : list (string * string)) (k : string) : option string :=
  match hs with
  | [] => None
  | (k', v) :: rest =>
      if String.eqb (str_lower k) (str_lower k') then Some v else headers_get rest k
  end.

(** ** Calls to external collaborators and the handler monad *)

(** The methods of the resource service that a generated handler calls. *)
Inductive service_method : Type := SFilter | SGet | SPost | SPut | SDelete.

(** A call argument: positional or keyword ([app.generic_service], the
    first positional argument of every service call, is the service's own
    state and is left implicit). *)
Inductive arg : Type :=
| Pos (v : json)
| Kw (name : string) (v : json).

Definition arg_value (a : arg) : json :=
  match a with Pos v => v | Kw _ v => v end.

Inductive event : Type :=
| EvLoadUser (token : json)                      (* security_manager.load_user *)
| EvService (m : service_method) (args : list arg) (* resource_service.<m> *)
| EvCraftToken (credentials : json)              (* ErtisTokenService.craft_token *)
| EvRefreshToken (user : json).                  (* ErtisTokenService.refresh_token *)

Definition is_service_event (ev : event) : bool :=
  match ev with EvService _ _ => true | _ => false end.

(** A computation logs the external calls it makes and either returns or
    raises. *)
Definition M (A : Type) : Type := (list event * res A)%type.

Definition ret {A} (a : A) : M A := ([], inr a).
Definition raise {A} (e : exn) : M A := ([], inl e).
Definition lift {A} (r : res A) : M A := ([], r).

Definition bind {A B} (m : M A) (f : A -> M B) : M B :=
  match m with
  | (t, inl e) => (t, inl e)
  | (t, inr a) => let (t', r) := f a in (t ++ t', r)
  end.

Notation "x <- c1 ;; c2" := (bind c1 (fun x => c2))
  (at level 61, c1 at next level, right associativity).
Notation "' pat <- c1 ;; c2" := (bind c1 (fun x => match x with pat => c2 end))
  (at level 61, pat pattern, c1 at next level, right associativity).
Notation "c1 ;; c2" := (bind c1 (fun _ => c2))
  (at level 61, right associativity).

(** Reading a local variable that may not have been assigned. *)
Definition read_local {A} (name : string) (o : option A) : M A :=
  match o with
  | Some v => ret v
  | None => raise (UnboundLocalError name)
  end.

(** ** Requests, responses, settings, collaborators *)

Record request : Type := mk_request {
  req_headers : list (string * string);
  req_data : string                       (* request.data *)
}.

(** A response body: the string a service returned, or [json.dumps(v)]. *)
Inductive payload : Type :=
| PRaw (s : string)
| PDumps (v : json).

Record response : Type := mk_response {
  resp_body : payload;
  resp_status : Z;
  resp_mimetype : option string           (* [None]: no mimetype argument *)
}.

(** Werkzeug's [Response.default_mimetype] is text/html, and a text
    mimetype gets a charset. *)
Definition content_type (r : response) : string :=
  match resp_mimetype r with
  | Some m => m
  | None => "text/html; charset=utf-8"
  end.

Record settings : Type := mk_settings {
  application_secret : string;
  verify_token : bool;
  token_ttl : json;
  api_version : string
}.

(** The collaborators the two source files call but do not define: the two
    security managers ([src.custom_services.security] in api.py,
    [src.resources.security] in tokens.py), [query_helpers.parse], the
    resource service, [json.loads] and [ErtisTokenService]. *)
Record env : Type := mk_env {
  api_load_user : json -> string -> bool -> res json;
  tokens_load_user : json -> string -> bool -> res json;
  parse_query : request -> res (json * json * json * json * json);
  service : service_method -> list arg -> res string;
  json_loads : string -> res json;
  craft_token : json -> string -> json -> res json;
  refresh_token_svc : json -> string -> json -> res json
}.

Section Calls.
Variable E : env.

Definition call_api_load_user (token : json) (secret : string) (verify : bool) : M json :=
  ([EvLoadUser token], api_load_user E token secret verify).

Definition call_tokens_load_user (token : json) (secret : string) (verify : bool) : M json :=
  ([EvLoadUser token], tokens_load_user E token secret verify).

Definition call_service (m : service_method) (args : list arg) : M string :=
  ([EvService m args], service E m args).

Definition call_craft_token (credentials : json) (secret : string) (ttl : json) : M json :=
  ([EvCraftToken credentials], craft_token E credentials secret ttl).

Definition call_refresh_token (user : json) (secret : string) (ttl : json) : M json :=
  ([EvRefreshToken user], refresh_token_svc E user secret ttl).

End Calls.

(** ** src/generics/api.py *)

(** [ensure_token_provided(db, req, api_name, secret, verify)].  The
    [try]/[except] around [auth_header.split(' ')] never fires on a string
    (and its [ErtisError] is built but not raised), so it is left out. *)
Definition ensure_token_provided (E : env) (req : request) (api_name secret : string)
    (verify : bool) : M json :=
  match headers_get (req_headers req) "Authorization" with
  | None =>
      raise (ErtisError "errors.authorizationHeaderRequired"
               ("Authorization header is required for using this api<" ++ api_name ++ ">")
               401 None)
  | Some auth_header =>
      if String.eqb auth_header EmptyString then
        raise (ErtisError "errors.authorizationHeaderRequired"
                 ("Authorization header is required for using this api<" ++ api_name ++ ">")
                 401 None)
      else
        let parts := py_split " "%char auth_header in
        if negb (Nat.eqb (length parts) 2) then
          raise (ErtisError "errors.invalidBearerTokenUsage"
                   "Bearer token usage is invalid" 401 None)
        else
          let token := nth 1 parts EmptyString in
          call_api_load_user E (JStr token) secret verify
  end.

(** [GenericErtisApi.STATUS_CODE_MAPPING]. *)
Definition STATUS_CODE_MAPPING : list (string * Z) :=
  [("CREATE", 201); ("READ", 200); ("QUERY", 200); ("UPDATE", 200);
   ("DELETE", 204); ("DISTINCT", 200)]%Z.

Definition status_code (k : string) : M Z :=
  match assoc_get k STATUS_CODE_MAPPING with
  | Some z => ret z
  | None => raise (KeyError k)
  end.

(** The attributes of a [GenericErtisApi] instance that the handlers read
    ([app], [logger] and [resource_service] are the environment). *)
Record GenericErtisApi : Type := mk_api {
  endpoint_prefix : string;
  methods : list string;
  resource_name : string;
  create_validation_schema : json;
  update_validation_schema : json;
  pipeline_functions : json;
  allow_to_anonymous : bool
}.

Definition generate_urls (api : GenericErtisApi) : string * string * string * string * string :=
  let get_url := (endpoint_prefix api ++ "/<resource_id>")%string in
  let post_url := endpoint_prefix api in
  let query_url := (endpoint_prefix api ++ "/_query")%string in
  (get_url, post_url, get_url, get_url, query_url).

Section Handlers.
Variable E : env.
Variable S : settings.
Variable api : GenericErtisApi.

Definition auth (req : request) : M json :=
  ensure_token_provided E req (resource_name api)
    (application_secret S) (verify_token S).

Definition query (req : request) : M response :=
  (if negb (allow_to_anonymous api) then _ <- auth req ;; ret tt else ret tt) ;;
  '(where_, select, limit, sort, skip) <- lift (parse_query E req) ;;
  body <- call_service E SFilter
            [Pos where_; Pos select; Pos limit; Pos skip; Pos sort;
             Pos (JStr (resource_name api))] ;;
  st <- status_code "QUERY" ;;
  ret (mk_response (PRaw body) st (Some "application/json")).

Definition read (req : request) (resource_id : string) : M response :=
  (if negb (allow_to_anonymous api) then _ <- auth req ;; ret tt else ret tt) ;;
  body <- call_service E SGet
            [Kw "_id" (JStr resource_id); Kw "resource_name" (JStr (resource_name api))] ;;
  st <- status_code "READ" ;;
  ret (mk_response (PRaw body) st (Some "application/json")).

(** [user] is a local of [create]: it is bound only by the auth branch. *)
Definition create (req : request) : M response :=
  user <- (if negb (allow_to_anonymous api) then u <- auth req ;; ret (Some u)
           else ret None) ;;
  let data := req_data req in
  u <- read_local "user" user ;;
  body <- call_service E SPost
            [Pos u; Pos (JStr data);
             Kw "resource_name" (JStr (resource_name api));
             Kw "validate_by" (create_validation_schema api);
             Kw "pipeline" (pipeline_functions api)] ;;
  st <- status_code "CREATE" ;;
  ret (mk_response (PRaw body) st (Some "application/json")).

Definition update (req : request) (resource_id : string) : M response :=
  user <- (if negb (allow_to_anonymous api) then u <- auth req ;; ret (Some u)
           else ret None) ;;
  let data := req_data req in
  u <- read_local "user" user ;;
  body <- call_service E SPut
            [Pos u; Pos (JStr resource_id); Pos (JStr data);
             Kw "resource_name" (JStr (resource_name api));
             Kw "validate_by" (update_validation_schema api);
             Kw "pipeline" (pipeline_functions api)] ;;
  st <- status_code "UPDATE" ;;
  ret (mk_response (PRaw body) st (Some "application/json")).

(** [delete] passes no [mimetype] to [Response]. *)
Definition delete (req : request) (resource_id : string) : M response :=
  (if negb (allow_to_anonymous api) then _ <- auth req ;; ret tt else ret tt) ;;
  body <- call_service E SDelete
            [Pos (JStr resource_id);
             Kw "resource_name" (JStr (resource_name api));
             Kw "pipeline" (pipeline_functions api)] ;;
  st <- status_code "DELETE" ;;
  ret (mk_response (PRaw body) st None).

End Handlers.

(** The five generated view functions. *)
Inductive endpoint : Type := EQuery | ERead | ECreate | EUpdate | EDelete.

Definition all_endpoints : list endpoint := [EQuery; ERead; ECreate; EUpdate; EDelete].

(** The name tested in [self.methods] for each view. *)
Definition method_name (k : endpoint) : string :=
  match k with
  | EQuery => "QUERY" | ERead => "GET" | ECreate => "POST"
  | EUpdate => "PUT" | EDelete => "DELETE"
  end.

(** Dispatch of a request to the view of a route ([resource_id] is the
    URL parameter of the views that take one). *)
Definition handle (E : env) (S : settings) (api : GenericErtisApi) (k : endpoint)
    (req : request) (resource_id : string) : M response :=
  match k with
  | EQuery => query E S api req
  | ERead => read E S api req resource_id
  | ECreate => create E S api req
  | EUpdate => update E S api req resource_id
  | EDelete => delete E S api req resource_id
  end.

Record route : Type := mk_route {
  route_url : string;
  route_http_method : string;
  route_name : string;
  route_view : endpoint
}.

Definition in_methods (api : GenericErtisApi) (m : string) : bool :=
  existsb (String.eqb m) (methods api).

(** [generate_endpoints]: the routes registered with [app.route], in order. *)
Definition generate_endpoints (api : GenericErtisApi) : list route :=
  let '(get_url, post_url, update_url, delete_url, query_url) := generate_urls api in
  (if in_methods api "QUERY"
   then [mk_route query_url "POST" (resource_name api ++ "_query")%string EQuery] else []) ++
  (if in_methods api "GET"
   then [mk_route get_url "GET" (resource_name api ++ "_read")%string ERead] else []) ++
  (if in_methods api "POST"
   then [mk_route post_url "POST" (resource_name api ++ "_create")%string ECreate] else []) ++
  (if in_methods api "PUT"
   then [mk_route update_url "PUT" (resource_name api ++ "_update")%string EUpdate] else []) ++
  (if in_methods api "DELETE"
   then [mk_route delete_url "DELETE" (resource_name api ++ "_delete")%string EDelete] else []).

(** The resource-service method each view calls. *)
Definition service_of (k : endpoint) : service_method :=
  match k with
  | EQuery => SFilter | ERead => SGet | ECreate => SPost
  | EUpdate => SPut | EDelete => SDelete
  end.

(** The five routes [generate_endpoints] can register, in its order. *)
Definition all_routes (api : GenericErtisApi) : list route :=
  let '(get_url, post_url, update_url, delete_url, query_url) := generate_urls api in
  [mk_route query_url "POST" (resource_name api ++ "_query")%string EQuery;
   mk_route get_url "GET" (resource_name api ++ "_read")%string ERead;
   mk_route post_url "POST" (resource_name api ++ "_create")%string ECreate;
   mk_route update_url "PUT" (resource_name api ++ "_update")%string EUpdate;
   mk_route delete_url "DELETE" (resource_name api ++ "_delete")%string EDelete].

(** ** jsonschema's [validate], for the keywords [type], [required] and
    [properties]

    A [ValidationError] carries the (sub)schema it came from ([e.schema]):
    the schema object holding the failing keyword.  Keywords are checked
    in the order of the schema dict, and [properties] descends into the
    instance's fields. *)

Record ValidationError : Type := mk_verr {
  verr_message : string;
  verr_validator : string;
  verr_path : list string;
  verr_schema : json
}.

Definition json_is_type (t : string) (v : json) : bool :=
  match v with
  | JNull => String.eqb t "null"
  | JBool _ => String.eqb t "boolean"
  | JNum _ => String.eqb t "integer" || String.eqb t "number"
  | JStr _ => String.eqb t "string"
  | JArr _ => String.eqb t "array"
  | JObj _ => String.eqb t "object"
  end.

Fixpoint required_errors (schema : json) (path : list string)
    (fields : list (string * json)) (req : list json) : list ValidationError :=
  match req with
  | [] => []
  | JStr r :: rest =>
      match assoc_get r fields with
      | Some _ => required_errors schema path fields rest
      | None =>
          mk_verr ("'" ++ r ++ "' is a required property")%string "required" path schema
            :: required_errors schema path fields rest
      end
  | _ :: rest => required_errors schema path fields rest
  end.

Fixpoint iter_errors (schema : json) (inst : json) (path : list string)
    {struct schema} : list ValidationError :=
  match schema with
  | JObj kws =>
      (fix keyword_errors (ks : list (string * json)) : list ValidationError :=
         match ks with
         | [] => []
         | (k, v) :: rest =>
             (if String.eqb k "type" then
                match v with
                | JStr t =>
                    if json_is_type t inst then []
                    else [mk_verr ("instance is not of type '" ++ t ++ "'")%string
                            "type" path schema]
                | _ => []
                end
              else if String.eqb k "required" then
                match v, inst with
                | JArr req, JObj fields => required_errors schema path fields req
                | _, _ => []
                end
              else if String.eqb k "properties" then
                match v, inst with
                | JObj props, JObj fields =>
                    (fix property_errors (ps : list (string * json)) : list ValidationError :=
                       match ps with
                       | [] => []
                       | (p, sub) :: ps' =>
                           match assoc_get p fields with
                           | Some x => iter_errors sub x (path ++ [p])
                           | None => []
                           end ++ property_errors ps'
                       end) props
                | _, _ => []
                end
              else []) ++ keyword_errors rest
         end) kws
  | _ => []
  end.

(** [best_match]: the first of the errors that are least deeply nested
    (jsonschema's relevance for these keywords). *)
Fixpoint best_of (best : ValidationError) (l : list ValidationError) : ValidationError :=
  match l with
  | [] => best
  | e :: l' =>
      if Nat.ltb (length (verr_path e)) (length (verr_path best))
      then best_of e l' else best_of best l'
  end.

Definition best_match (l : list ValidationError) : option ValidationError :=
  match l with
  | [] => None
  | e :: l' => Some (best_of e l')
  end.

(** [validate(instance, schema)]: raises the best match, if any. *)
Definition validate (inst schema : json) : option ValidationError :=
  best_match (iter_errors schema inst []).

(** Modelled from the spec, with [CREATE_TOKEN_SCHEMA] below: the subschema
    of each of its fields, a string. *)
Definition string_field_schema : json := JObj [("type", JStr "string")].

(** Modelled from the spec: [CREATE_TOKEN_SCHEMA] of
    [src/resources/tokens/schema.py], which is not among the sources.  The
    spec gives the body of POST /tokens as an object [{email, password}]
    whose fields may be missing or invalid: an object schema requiring both
    fields, each a string. *)
Definition CREATE_TOKEN_SCHEMA : json :=
  JObj [("type", JStr "object");
        ("properties", JObj [("email", string_field_schema);
                             ("password", string_field_schema)]);
        ("required", JArr [JStr "email"; JStr "password"])].

(** ** src/custom_api/tokens.py *)

Section TokenViews.
Variable E : env.
Variable S : settings.

(** [create_token]: [json.loads(request.data)] runs outside the [try]. *)
Definition create_token (req : request) : M response :=
  body <- lift (json_loads E (req_data req)) ;;
  (match validate body CREATE_TOKEN_SCHEMA with
   | Some e =>
       required <- lift (dict_get_default (verr_schema e) "required" (JArr [])) ;;
       properties <- lift (dict_get_default (verr_schema e) "properties" (JObj [])) ;;
       raise (ErtisError "errors.validationError" (verr_message e) 400
                (Some [("required", required); ("properties", properties)]))
   | None => ret tt
   end) ;;
  email <- lift (py_getitem body "email") ;;
  password <- lift (py_getitem body "password") ;;
  let credentials := JObj [("email", email); ("password", password)] in
  token <- call_craft_token E credentials (application_secret S) (token_ttl S) ;;
  ret (mk_response (PDumps (JObj [("token", token)])) 200 (Some "application/json")).

(** [refresh_token]: a [ValueError] from [json.loads] becomes a 400. *)
Definition refresh_token (req : request) : M response :=
  body <- (match json_loads E (req_data req) with
           | inr b => ret b
           | inl e =>
               if is_value_error e then
                 raise (ErtisError "errors.badRequest" "Invalid json provided" 400
                          (Some [("message", JStr (exn_str e))]))
               else raise e
           end) ;;
  token_opt <- lift (dict_get body "token") ;;
  let token := match token_opt with Some t => t | None => JNull end in
  (if negb (py_truthy token) then
     raise (ErtisError "errors.tokenRequired" "Token is required" 400 None)
   else ret tt) ;;
  user <- call_tokens_load_user E token (application_secret S) (verify_token S) ;;
  new_token <- call_refresh_token E user (application_secret S) (token_ttl S) ;;
  ret (mk_response (PDumps (JObj [("token", new_token)])) 201 (Some "application/json")).

End TokenViews.

(** ** The spec's reading of the Authorization header *)

Definition is_whitespace (c : ascii) : bool :=
  let n := nat_of_ascii c in
  (Nat.eqb n 32 || ((9 <=? n) && (n <=? 13)))%nat.

(** The spec's "whitespace-separated tokens" (Python's [str.split()] with
    no argument): runs of whitespace separate, and no token is empty.
    Written from the spec's words, to be compared with [py_split]. *)
Definition spec_split_whitespace (s : string) : list string :=
  let fix go (cur : list ascii) (l : list ascii) : list (list ascii) :=
    match l with
    | [] => [rev cur]
    | c :: l' => if is_whitespace c then rev cur :: go [] l' else go (c :: cur) l'
    end in
  filter (fun t => negb (String.eqb t EmptyString))
    (map string_of_list_ascii (go [] (list_ascii_of_string s))).

(** [api] with another [methods] list. *)
Definition with_methods (api : GenericErtisApi) (ms : list string) : GenericErtisApi :=
  mk_api (endpoint_prefix api) ms (resource_name api) (create_validation_schema api)
    (update_validation_schema api) (pipeline_functions api) (allow_to_anonymous api).

(** ** Sample inputs *)

Definition alice : json :=
  JObj [("_id", JStr "u1"); ("email", JStr "alice@example.com")].

Definition auth_failure : exn :=
  ErtisError "errors.authenticationFailed" "Token is invalid" 401 None.

Definition sample_load_user (token : json) (_ : string) (_ : bool) : res json :=
  match token with
  | JStr s => if String.eqb s "good" then inr alice else inl auth_failure
  | _ => inl auth_failure
  end.

(** [json.loads] on a few request bodies, named by what they hold. *)
Definition sample_json_loads (data : string) : res json :=
  if String.eqb data "[]" then inr (JArr [])
  else if String.eqb data "refresh-body" then inr (JObj [("token", JStr "good")])
  else if String.eqb data "email-not-a-string" then
    inr (JObj [("email", JNum 5); ("password", JStr "pw")])
  else if String.eqb data "credentials" then
    inr (JObj [("email", JStr "alice@example.com"); ("password", JStr "pw")])
  else inl (JSONDecodeError "Expecting value: line 1 column 1 (char 0)").

Definition sample_env : env := {|
  api_load_user := sample_load_user;
  tokens_load_user := sample_load_user;
  parse_query := fun _ => inr (JObj [], JNull, JNum 10, JNull, JNum 0);
  service := fun _ _ => inr "resource-body";
  json_loads := sample_json_loads;
  craft_token := fun _ _ _ => inr (JStr "new-token");
  refresh_token_svc := fun _ _ _ => inr (JStr "refreshed-token")
|}.

(** The same collaborators, with a [query_helpers.parse] that rejects the
    request and a resource service that fails. *)
Definition failing_env : env := {|
  api_load_user := sample_load_user;
  tokens_load_user := sample_load_user;
  parse_query := fun _ => inl (ExternalError "invalid where clause");
  service := fun _ _ => inl (ExternalError "resource not found");
  json_loads := sample_json_loads;
  craft_token := fun _ _ _ => inr (JStr "new-token");
  refresh_token_svc := fun _ _ _ => inr (JStr "refreshed-token")
|}.

Definition sample_settings : settings := mk_settings "secret" true (JNum 3600) "v1".

Definition sample_api (anonymous : bool) (ms : list string) : GenericErtisApi :=
  mk_api "/api/v1/examples" ms "examples" JNull JNull JNull anonymous.

Definition sample_request (headers : list (string * string)) (data : string) : request :=
  mk_request headers data.

(** ** The handler monad *)

Lemma bind_assoc {A B C} (m : M A) (f : A -> M B) (g : B -> M C) :
  bind (bind m f) g = bind m (fun x => bind (f x) g).
Proof.
  destruct m as [t [e | a]]; simpl; [reflexivity |].
  destruct (f a) as [t1 [e1 | b]]; simpl; [reflexivity |].
  destruct (g b) as [t2 r2]; simpl. rewrite app_assoc. reflexivity.
Qed.

Lemma bind_inr {A B} (t : list event) (a : A) (f : A -> M B) :
  bind (t, inr a) f = (t ++ fst (f a), snd (f a)).
Proof. simpl. destruct (f a). reflexivity. Qed.

(** Symbolic execution of a view: every effect of the environment is split
    into its outcomes. *)
Ltac unfold_views :=
  unfold handle, query, read, create, update, delete, call_service, read_local,
    status_code, lift, ret, raise.

Ltac split_effects H E S api req :=
  destruct (allow_to_anonymous api); simpl negb in H; cbv iota in H;
  try (destruct (auth E S api req) as [? [? | ?]]);
  try (destruct (parse_query E req) as [? | [[[[? ?] ?] ?] ?]]);
  simpl in H;
  try (match type of H with
       | context [service ?E0 ?m ?args] => destruct (service E0 m args) eqn:?
       end);
  simpl in H.

(** ** The auth gate *)

(** The shape of the gate: it raises before any call, or it makes exactly
    one call, to the security manager, and returns what that returns. *)
Lemma ensure_token_provided_shape E req name secret verify :
  (exists e, ensure_token_provided E req name secret verify = ([], inl e)) \/
  (exists tok, ensure_token_provided E req name secret verify =
               ([EvLoadUser tok], api_load_user E tok secret verify)).
Proof.
  unfold ensure_token_provided, raise, call_api_load_user.
  destruct (headers_get (req_headers req) "Authorization") as [h |].
  - destruct (String.eqb h EmptyString); [left; eexists; reflexivity |].
    destruct (negb (Nat.eqb (length (py_split " "%char h)) 2));
      [left; eexists; reflexivity | right; eexists; reflexivity].
  - left; eexists; reflexivity.
Qed.

(** A non-anonymous view starts with the gate: the rest of the view runs
    only on the User the gate returns. *)
Lemma handle_starts_with_auth E S api k req rid :
  allow_to_anonymous api = false ->
  exists G, handle E S api k req rid = bind (auth E S api req) G.
Proof.
  intros Hanon.
  destruct k; simpl; unfold query, read, create, update, delete;
    rewrite Hanon; simpl negb; cbv iota; eexists; rewrite bind_assoc; reflexivity.
Qed.

Lemma in_methods_spec api m : in_methods api m = true <-> In m (methods api).
Proof.
  unfold in_methods. rewrite existsb_exists. split.
  - intros (x & Hin & Heq). apply String.eqb_eq in Heq. subst. exact Hin.
  - intros Hin. exists m. split; [exact Hin | apply String.eqb_refl].
Qed.

Lemma route_views_spec api k :
  In k (map route_view (generate_endpoints api)) <-> in_methods api (method_name k) = true.
Proof.
  unfold generate_endpoints, generate_urls.
  destruct k; simpl;
    destruct (in_methods api "QUERY"), (in_methods api "GET"), (in_methods api "POST"),
             (in_methods api "PUT"), (in_methods api "DELETE");
    simpl; intuition discriminate.
Qed.

(** ** Claims *)

(** C1: every generated view of a non-anonymous resource runs the auth gate
    ([ensure_token_provided]) before anything else.  The calls the gate
    makes are no resource-service calls; when the gate raises, the view
    raises the same error and calls nothing more, so the resource service is
    never reached; when it returns a User, that User is what the security
    manager's [load_user] returned for the bearer token. *)
Theorem non_anonymous_views_authenticate_first E S api k req rid tr_gate r :
  allow_to_anonymous api = false ->
  auth E S api req = (tr_gate, r) ->
  exists tr_rest,
    fst (handle E S api k req rid) = tr_gate ++ tr_rest /\
    forallb (fun ev => negb (is_service_event ev)) tr_gate = true /\
    (forall e, r = inl e -> tr_rest = [] /\ snd (handle E S api k req rid) = inl e) /\
    (forall u, r = inr u ->
       exists tok, tr_gate = [EvLoadUser tok] /\
                   api_load_user E tok (application_secret S) (verify_token S) = inr u).
Proof.
  intros Hanon Hauth.
  destruct (handle_starts_with_auth E S api k req rid Hanon) as [G ->].
  rewrite Hauth.
  destruct (ensure_token_provided_shape E req (resource_name api)
              (application_secret S) (verify_token S)) as [[e0 He] | [tok Htok]];
    unfold auth in Hauth; rewrite Hauth in He || rewrite Hauth in Htok.
  - injection He as -> ->. exists []. simpl. try rewrite app_nil_r.
    split; [reflexivity |]. split; [reflexivity |]. split.
    + intros e He. injection He as <-. auto.
    + intros u Hu. discriminate.
  - injection Htok as -> ->. destruct (api_load_user E tok _ _) as [e | u] eqn:Hr.
    + exists []. simpl. try rewrite app_nil_r. split; [reflexivity |]. split; [reflexivity |].
      split; [intros e' He'; injection He' as <-; auto | intros u Hu; discriminate].
    + exists (fst (G u)). rewrite bind_inr.
      split; [reflexivity |]. split; [reflexivity |].
      split; [intros e He; discriminate |].
      intros u' Hu'. injection Hu' as <-. exists tok. auto.
Qed.

Lemma non_anonymous_views_authenticate_first_witness :
  allow_to_anonymous (sample_api false ["GET"]) = false /\
  auth sample_env sample_settings (sample_api false ["GET"])
    (sample_request [("Authorization", "Bearer good")] EmptyString) =
    ([EvLoadUser (JStr "good")], inr alice) /\
  exists tr_rest,
    fst (handle sample_env sample_settings (sample_api false ["GET"]) ERead
           (sample_request [("Authorization", "Bearer good")] EmptyString) "42") =
      [EvLoadUser (JStr "good")] ++ tr_rest /\
    forallb (fun ev => negb (is_service_event ev)) [EvLoadUser (JStr "good")] = true /\
    (forall e, @inr exn json alice = inl e -> tr_rest = [] /\
       snd (handle sample_env sample_settings (sample_api false ["GET"]) ERead
              (sample_request [("Authorization", "Bearer good")] EmptyString) "42") = inl e) /\
    (forall u, @inr exn json alice = inr u ->
       exists tok, [EvLoadUser (JStr "good")] = [EvLoadUser tok] /\
         api_load_user sample_env tok (application_secret sample_settings)
           (verify_token sample_settings) = inr u).
Proof.
  split; [reflexivity |]. split; [vm_compute; reflexivity |].
  apply (non_anonymous_views_authenticate_first sample_env sample_settings
           (sample_api false ["GET"]) ERead
           (sample_request [("Authorization", "Bearer good")] EmptyString) "42"
           [EvLoadUser (JStr "good")] (inr alice)); [reflexivity | vm_compute; reflexivity].
Defined.

(** C2 (as amended): the auth gate of a non-anonymous view.  An absent or
    empty Authorization header fails with the 401
    errors.authorizationHeaderRequired; otherwise the header is cut at every
    single space character ([split(' ')]); if that does not give exactly two
    pieces, the view fails with the 401 errors.invalidBearerTokenUsage;
    otherwise the second piece (possibly empty) is what the view passes to
    the security manager's [load_user], as its first call. *)
Theorem auth_header_contract E S api k req rid :
  allow_to_anonymous api = false ->
  ((headers_get (req_headers req) "Authorization" = None \/
    headers_get (req_headers req) "Authorization" = Some EmptyString) ->
   handle E S api k req rid =
     ([], inl (ErtisError "errors.authorizationHeaderRequired"
                 ("Authorization header is required for using this api<"
                    ++ resource_name api ++ ">") 401 None))) /\
  (forall h, headers_get (req_headers req) "Authorization" = Some h ->
   h <> EmptyString -> length (py_split " "%char h) <> 2%nat ->
   handle E S api k req rid =
     ([], inl (ErtisError "errors.invalidBearerTokenUsage"
                 "Bearer token usage is invalid" 401 None))) /\
  (forall h, headers_get (req_headers req) "Authorization" = Some h ->
   h <> EmptyString -> length (py_split " "%char h) = 2%nat ->
   exists rest, fst (handle E S api k req rid) =
     EvLoadUser (JStr (nth 1 (py_split " "%char h) EmptyString)) :: rest).
Proof.
  intros Hanon.
  destruct (handle_starts_with_auth E S api k req rid Hanon) as [G ->].
  unfold auth, ensure_token_provided. cbv zeta.
  split; [| split].
  - intros [H | H]; rewrite H; reflexivity.
  - intros h H Hne Hlen. rewrite H.
    apply String.eqb_neq in Hne. rewrite Hne.
    apply Nat.eqb_neq in Hlen. rewrite Hlen. reflexivity.
  - intros h H Hne Hlen. rewrite H.
    apply String.eqb_neq in Hne. rewrite Hne.
    apply Nat.eqb_eq in Hlen. rewrite Hlen. simpl negb. cbv iota.
    unfold call_api_load_user.
    destruct (api_load_user E _ _ _) as [e | u].
    + exists []. reflexivity.
    + exists (fst (G u)). rewrite bind_inr. reflexivity.
Qed.

Lemma auth_header_contract_witness :
  allow_to_anonymous (sample_api false ["GET"]) = false /\
  headers_get (req_headers (sample_request [("Authorization", "Bearer good")] EmptyString))
    "Authorization" = Some "Bearer good" /\
  "Bearer good" <> EmptyString /\
  length (py_split " "%char "Bearer good") = 2%nat /\
  exists rest,
    fst (handle sample_env sample_settings (sample_api false ["GET"]) ERead
           (sample_request [("Authorization", "Bearer good")] EmptyString) "42") =
    EvLoadUser (JStr (nth 1 (py_split " "%char "Bearer good") EmptyString)) :: rest.
Proof.
  split; [reflexivity |]. split; [reflexivity |]. split; [discriminate |].
  split; [reflexivity |].
  apply (auth_header_contract sample_env sample_settings (sample_api false ["GET"]) ERead
           (sample_request [("Authorization", "Bearer good")] EmptyString) "42");
    [reflexivity | reflexivity | discriminate | reflexivity].
Defined.

(** C2, counterexample: the header "Bearer  good" (two spaces) splits into
    exactly two whitespace-separated tokens, "Bearer" and "good", yet the
    GET view answers 401 errors.invalidBearerTokenUsage and never calls
    [load_user]: [split(' ')] gives three pieces. *)
Lemma auth_header_double_space_counterexample :
  spec_split_whitespace "Bearer  good" = ["Bearer"; "good"] /\
  py_split " "%char "Bearer  good" = ["Bearer"; EmptyString; "good"] /\
  handle sample_env sample_settings (sample_api false ["GET"]) ERead
    (sample_request [("Authorization", "Bearer  good")] EmptyString) "42" =
    ([], inl (ErtisError "errors.invalidBearerTokenUsage"
                "Bearer token usage is invalid" 401 None)).
Proof. split; [| split]; vm_compute; reflexivity. Qed.

(** C3: a view is registered exactly for the names in [methods] (QUERY, GET,
    POST, PUT, DELETE); with [methods = ['GET']] the only route is the GET
    read route. *)
Theorem generate_endpoints_follow_methods api :
  (forall k, In k (map route_view (generate_endpoints api)) <-> In (method_name k) (methods api)) /\
  generate_endpoints (with_methods api ["GET"]) =
    [mk_route (endpoint_prefix api ++ "/<resource_id>") "GET"
              (resource_name api ++ "_read") ERead].
Proof.
  split.
  - intros k. rewrite route_views_spec. apply in_methods_spec.
  - reflexivity.
Qed.

(** C4 (as amended): once the gate of a non-anonymous view has returned the
    User [u], the POST and PUT views pass [u] as the first positional
    argument of [service.post] and [service.put]; the DELETE, GET and QUERY
    views make their service call with arguments taken from the request,
    the resource id and the descriptor only, so the User is not among
    them. *)
Theorem user_threaded_into_post_and_put E S api req rid tr u :
  allow_to_anonymous api = false ->
  auth E S api req = (tr, inr u) ->
  fst (handle E S api ECreate req rid) =
    tr ++ [EvService SPost [Pos u; Pos (JStr (req_data req));
                            Kw "resource_name" (JStr (resource_name api));
                            Kw "validate_by" (create_validation_schema api);
                            Kw "pipeline" (pipeline_functions api)]] /\
  fst (handle E S api EUpdate req rid) =
    tr ++ [EvService SPut [Pos u; Pos (JStr rid); Pos (JStr (req_data req));
                           Kw "resource_name" (JStr (resource_name api));
                           Kw "validate_by" (update_validation_schema api);
                           Kw "pipeline" (pipeline_functions api)]] /\
  fst (handle E S api EDelete req rid) =
    tr ++ [EvService SDelete [Pos (JStr rid);
                              Kw "resource_name" (JStr (resource_name api));
                              Kw "pipeline" (pipeline_functions api)]] /\
  fst (handle E S api ERead req rid) =
    tr ++ [EvService SGet [Kw "_id" (JStr rid);
                           Kw "resource_name" (JStr (resource_name api))]] /\
  fst (handle E S api EQuery req rid) =
    tr ++ match parse_query E req with
          | inr (where_, select, limit, sort, skip) =>
              [EvService SFilter [Pos where_; Pos select; Pos limit; Pos skip; Pos sort;
                                  Pos (JStr (resource_name api))]]
          | inl _ => []
          end.
Proof.
  intros Hanon Hauth. unfold_views. rewrite Hanon. simpl negb. cbv iota.
  rewrite Hauth. simpl.
  repeat split;
    try (destruct (parse_query E req) as [? | [[[[? ?] ?] ?] ?]]; simpl);
    try (destruct (service E _ _); simpl);
    repeat rewrite <- app_assoc; reflexivity.
Qed.

Lemma user_threaded_into_post_and_put_witness :
  allow_to_anonymous (sample_api false ["POST"; "PUT"; "DELETE"]) = false /\
  auth sample_env sample_settings (sample_api false ["POST"; "PUT"; "DELETE"])
    (sample_request [("Authorization", "Bearer good")] "payload") =
    ([EvLoadUser (JStr "good")], inr alice) /\
  fst (handle sample_env sample_settings (sample_api false ["POST"; "PUT"; "DELETE"])
         ECreate (sample_request [("Authorization", "Bearer good")] "payload") "42") =
    [EvLoadUser (JStr "good")] ++
    [EvService SPost [Pos alice; Pos (JStr "payload");
                      Kw "resource_name" (JStr "examples");
                      Kw "validate_by" JNull; Kw "pipeline" JNull]].
Proof.
  split; [reflexivity |]. split; [vm_compute; reflexivity |].
  apply (user_threaded_into_post_and_put sample_env sample_settings
           (sample_api false ["POST"; "PUT"; "DELETE"])
           (sample_request [("Authorization", "Bearer good")] "payload") "42"
           [EvLoadUser (JStr "good")] alice); [reflexivity | vm_compute; reflexivity].
Defined.

(** C4, counterexample: the DELETE view of a non-anonymous resource resolves
    the User [alice] and then calls [service.delete] with arguments none of
    which is that User. *)
Lemma delete_does_not_receive_user_counterexample :
  auth sample_env sample_settings (sample_api false ["DELETE"])
    (sample_request [("Authorization", "Bearer good")] EmptyString) =
    ([EvLoadUser (JStr "good")], inr alice) /\
  fst (handle sample_env sample_settings (sample_api false ["DELETE"]) EDelete
         (sample_request [("Authorization", "Bearer good")] EmptyString) "42") =
    [EvLoadUser (JStr "good");
     EvService SDelete [Pos (JStr "42"); Kw "resource_name" (JStr "examples");
                        Kw "pipeline" JNull]] /\
  ~ (exists a, In a [Pos (JStr "42"); Kw "resource_name" (JStr "examples");
                     Kw "pipeline" JNull] /\ arg_value a = alice).
Proof.
  split; [vm_compute; reflexivity |]. split; [vm_compute; reflexivity |].
  intros (a & Hin & Ha). simpl in Hin.
  destruct Hin as [<- | [<- | [<- | []]]]; discriminate.
Qed.

(** C5: on success, a view's response body is the string the resource
    service returned, unmodified; the QUERY, GET, POST and PUT views set the
    mimetype application/json, but the DELETE view passes no mimetype, so
    its Content-Type is Werkzeug's default. *)
Theorem view_response_shaping E S api k req rid tr resp :
  handle E S api k req rid = (tr, inr resp) ->
  (exists m args s, In (EvService m args) tr /\ service E m args = inr s /\
                    resp_body resp = PRaw s) /\
  resp_mimetype resp = match k with EDelete => None | _ => Some "application/json" end.
Proof.
  destruct k; unfold_views; intros H; split_effects H E S api req;
    try discriminate; injection H as <- <-;
    (split; [| reflexivity]);
    do 3 eexists; (split; [| split; [eassumption | reflexivity]]);
    rewrite ?in_app_iff; simpl; auto.
Qed.

Lemma view_response_shaping_witness :
  handle sample_env sample_settings (sample_api false ["DELETE"]) EDelete
    (sample_request [("Authorization", "Bearer good")] EmptyString) "42" =
    ([EvLoadUser (JStr "good");
      EvService SDelete [Pos (JStr "42"); Kw "resource_name" (JStr "examples");
                         Kw "pipeline" JNull]],
     inr (mk_response (PRaw "resource-body") 204 None)) /\
  ((exists m args s,
      In (EvService m args)
        [EvLoadUser (JStr "good");
         EvService SDelete [Pos (JStr "42"); Kw "resource_name" (JStr "examples");
                            Kw "pipeline" JNull]] /\
      service sample_env m args = inr s /\
      resp_body (mk_response (PRaw "resource-body") 204 None) = PRaw s) /\
   resp_mimetype (mk_response (PRaw "resource-body") 204 None) = None) /\
  content_type (mk_response (PRaw "resource-body") 204 None) = "text/html; charset=utf-8".
Proof.
  split; [vm_compute; reflexivity |]. split; [| reflexivity].
  apply (view_response_shaping sample_env sample_settings (sample_api false ["DELETE"])
           EDelete (sample_request [("Authorization", "Bearer good")] EmptyString) "42").
  vm_compute. reflexivity.
Defined.

(** C6: the status code of every successful response is fixed per view:
    200 for QUERY, 200 for GET, 201 for POST, 200 for PUT, 204 for DELETE. *)
Theorem view_status_codes E S api k req rid tr resp :
  handle E S api k req rid = (tr, inr resp) ->
  resp_status resp = match k with
                     | EQuery => 200 | ERead => 200 | ECreate => 201
                     | EUpdate => 200 | EDelete => 204
                     end%Z.
Proof.
  destruct k; unfold_views; intros H; split_effects H E S api req;
    try discriminate; injection H as <- <-; reflexivity.
Qed.

Lemma view_status_codes_witness :
  handle sample_env sample_settings (sample_api false ["POST"]) ECreate
    (sample_request [("Authorization", "Bearer good")] "payload") EmptyString =
    ([EvLoadUser (JStr "good");
      EvService SPost [Pos alice; Pos (JStr "payload");
                       Kw "resource_name" (JStr "examples");
                       Kw "validate_by" JNull; Kw "pipeline" JNull]],
     inr (mk_response (PRaw "resource-body") 201 (Some "application/json"))) /\
  resp_status (mk_response (PRaw "resource-body") 201 (Some "application/json")) = 201%Z.
Proof.
  split; [vm_compute; reflexivity |].
  apply (view_status_codes sample_env sample_settings (sample_api false ["POST"]) ECreate
           (sample_request [("Authorization", "Bearer good")] "payload") EmptyString
           [EvLoadUser (JStr "good");
            EvService SPost [Pos alice; Pos (JStr "payload");
                             Kw "resource_name" (JStr "examples");
                             Kw "validate_by" JNull; Kw "pipeline" JNull]]).
  vm_compute. reflexivity.
Defined.

(** C9: on an anonymous resource the POST and PUT views read the local
    [user], which only the skipped auth branch assigns: every request raises
    [UnboundLocalError] before any call, so the resource service is never
    reached. *)
Theorem anonymous_create_update_unbound_user E S api k req rid :
  allow_to_anonymous api = true ->
  k = ECreate \/ k = EUpdate ->
  handle E S api k req rid = ([], inl (UnboundLocalError "user")).
Proof.
  intros Hanon [-> | ->]; unfold_views; rewrite Hanon; reflexivity.
Qed.

Lemma anonymous_create_update_unbound_user_witness :
  allow_to_anonymous (sample_api true ["POST"; "PUT"]) = true /\
  (ECreate = ECreate \/ ECreate = EUpdate) /\
  handle sample_env sample_settings (sample_api true ["POST"; "PUT"]) ECreate
    (sample_request [] "payload") EmptyString = ([], inl (UnboundLocalError "user")).
Proof.
  split; [reflexivity |]. split; [left; reflexivity |].
  apply anonymous_create_update_unbound_user; [reflexivity | left; reflexivity].
Defined.

(** ** The token views *)

(** C10: a body that [json.loads] rejects makes [create_token] raise the
    [JSONDecodeError] itself (nothing catches it), while [refresh_token]
    turns the same failure into the 400 errors.badRequest. *)
Theorem create_token_invalid_json_unhandled E S req msg :
  json_loads E (req_data req) = inl (JSONDecodeError msg) ->
  create_token E S req = ([], inl (JSONDecodeError msg)) /\
  refresh_token E S req =
    ([], inl (ErtisError "errors.badRequest" "Invalid json provided" 400
                (Some [("message", JStr msg)]))).
Proof.
  intros H. unfold create_token, refresh_token, lift. rewrite H. split; reflexivity.
Qed.

Lemma create_token_invalid_json_unhandled_witness :
  json_loads sample_env (req_data (sample_request [] "not json")) =
    inl (JSONDecodeError "Expecting value: line 1 column 1 (char 0)") /\
  create_token sample_env sample_settings (sample_request [] "not json") =
    ([], inl (JSONDecodeError "Expecting value: line 1 column 1 (char 0)")) /\
  refresh_token sample_env sample_settings (sample_request [] "not json") =
    ([], inl (ErtisError "errors.badRequest" "Invalid json provided" 400
                (Some [("message", JStr "Expecting value: line 1 column 1 (char 0)")]))).
Proof.
  split; [reflexivity |].
  apply create_token_invalid_json_unhandled. reflexivity.
Defined.

(** C7 (code defect): a body that is valid JSON but not an object, such as
    [[]], has no [get]: [refresh_token] raises [AttributeError] instead of
    the 400 errors.tokenRequired. *)
Theorem refresh_token_non_object_body E S req j :
  json_loads E (req_data req) = inr j ->
  (forall kvs, j <> JObj kvs) ->
  refresh_token E S req = ([], inl (AttributeError "object has no attribute 'get'")).
Proof.
  intros H Hj. unfold refresh_token, lift. rewrite H.
  destruct j; try reflexivity. exfalso. eapply Hj. reflexivity.
Qed.

Lemma refresh_token_non_object_body_witness :
  json_loads sample_env (req_data (sample_request [] "[]")) = inr (JArr []) /\
  (forall kvs, JArr [] <> JObj kvs) /\
  refresh_token sample_env sample_settings (sample_request [] "[]") =
    ([], inl (AttributeError "object has no attribute 'get'")).
Proof.
  split; [reflexivity |]. split; [intros kvs; discriminate |].
  apply (refresh_token_non_object_body sample_env sample_settings (sample_request [] "[]")
           (JArr [])); [reflexivity | intros kvs; discriminate].
Defined.

(** ** jsonschema on the create-token schema *)

Lemma best_of_in b l : In (best_of b l) (b :: l).
Proof.
  revert b. induction l as [| x l IH]; intros b; simpl; [auto |].
  destruct (Nat.ltb _ _).
  - specialize (IH x). simpl in IH. tauto.
  - specialize (IH b). simpl in IH. tauto.
Qed.

Lemma best_match_in l e : best_match l = Some e -> In e l.
Proof.
  destruct l as [| b l]; simpl; [discriminate |].
  intros H. injection H as <-. apply best_of_in.
Qed.

Ltac split_matches :=
  repeat match goal with
  | |- context [match ?x with _ => _ end] => destruct x
  end.

Lemma create_token_schema_errors body e :
  validate body CREATE_TOKEN_SCHEMA = Some e ->
  (verr_schema e = CREATE_TOKEN_SCHEMA /\ verr_path e = []) \/
  (verr_schema e = string_field_schema /\ verr_path e <> []).
Proof.
  unfold validate. intros H. apply best_match_in in H. revert e H. apply Forall_forall.
  destruct body; simpl; split_matches; simpl;
    repeat (constructor; [first [left; split; reflexivity | right; split; [reflexivity | discriminate]] |]);
    constructor.
Qed.

Lemma create_token_schema_valid body :
  validate body CREATE_TOKEN_SCHEMA = None ->
  exists kvs em pw, body = JObj kvs /\ assoc_get "email" kvs = Some em /\
                    assoc_get "password" kvs = Some pw.
Proof.
  unfold validate. destruct body; simpl; try discriminate.
  destruct (assoc_get "email" kvs) as [em |] eqn:He;
    destruct (assoc_get "password" kvs) as [pw |] eqn:Hp;
    simpl; split_matches; simpl; try discriminate.
  intros _. exists kvs, em, pw. auto.
Qed.


(** C8 (as amended): for a body [json.loads] accepts, a body the
    create-token schema rejects fails with the 400 errors.validationError,
    whose context holds [e.schema.get('required', [])] and
    [e.schema.get('properties', {})] of the (sub)schema the reported error
    came from: the create-token schema's own for a top-level error (a
    missing field, a body that is not an object), and [[]] and [{}] for an
    error inside a field; a valid body is passed on as the credentials
    [{email, password}] to [craft_token], and its token comes back as
    [{"token": token}] with status 200 (an error of [craft_token]
    propagates). *)
Theorem create_token_contract E S req body :
  json_loads E (req_data req) = inr body ->
  (forall e, validate body CREATE_TOKEN_SCHEMA = Some e ->
     create_token E S req =
       ([], inl (ErtisError "errors.validationError" (verr_message e) 400
                   (Some match verr_path e with
                         | [] => [("required", JArr [JStr "email"; JStr "password"]);
                                  ("properties", JObj [("email", string_field_schema);
                                                       ("password", string_field_schema)])]
                         | _ :: _ => [("required", JArr []); ("properties", JObj [])]
                         end)))) /\
  (validate body CREATE_TOKEN_SCHEMA = None ->
     exists email password,
       py_getitem body "email" = inr email /\ py_getitem body "password" = inr password /\
       create_token E S req =
         ([EvCraftToken (JObj [("email", email); ("password", password)])],
          match craft_token E (JObj [("email", email); ("password", password)])
                  (application_secret S) (token_ttl S) with
          | inr token =>
              inr (mk_response (PDumps (JObj [("token", token)])) 200 (Some "application/json"))
          | inl x => inl x
          end)).
Proof.
  intros H. unfold create_token, lift. rewrite H, bind_inr. cbv beta. split.
  - intros e He. rewrite He.
    destruct (create_token_schema_errors body e He) as [[Hs Hp] | [Hs Hp]];
      rewrite Hs; [rewrite Hp | destruct (verr_path e); [congruence |]]; reflexivity.
  - intros Hv. rewrite Hv.
    destruct (create_token_schema_valid body Hv) as (kvs & em & pw & -> & He & Hp).
    exists em, pw. unfold py_getitem. rewrite He, Hp.
    split; [reflexivity | split; [reflexivity |]].
    unfold call_craft_token. simpl.
    destruct (craft_token E _ _ _); reflexivity.
Qed.

Lemma create_token_contract_witness :
  json_loads sample_env (req_data (sample_request [] "credentials")) =
    inr (JObj [("email", JStr "alice@example.com"); ("password", JStr "pw")]) /\
  (forall e, validate (JObj [("email", JStr "alice@example.com"); ("password", JStr "pw")])
               CREATE_TOKEN_SCHEMA = Some e ->
     create_token sample_env sample_settings (sample_request [] "credentials") =
       ([], inl (ErtisError "errors.validationError" (verr_message e) 400
                   (Some match verr_path e with
                         | [] => [("required", JArr [JStr "email"; JStr "password"]);
                                  ("properties", JObj [("email", string_field_schema);
                                                       ("password", string_field_schema)])]
                         | _ :: _ => [("required", JArr []); ("properties", JObj [])]
                         end)))) /\
  (validate (JObj [("email", JStr "alice@example.com"); ("password", JStr "pw")])
     CREATE_TOKEN_SCHEMA = None ->
     exists email password,
       py_getitem (JObj [("email", JStr "alice@example.com"); ("password", JStr "pw")])
         "email" = inr email /\
       py_getitem (JObj [("email", JStr "alice@example.com"); ("password", JStr "pw")])
         "password" = inr password /\
       create_token sample_env sample_settings (sample_request [] "credentials") =
         ([EvCraftToken (JObj [("email", email); ("password", password)])],
          match craft_token sample_env (JObj [("email", email); ("password", password)])
                  (application_secret sample_settings) (token_ttl sample_settings) with
          | inr token =>
              inr (mk_response (PDumps (JObj [("token", token)])) 200 (Some "application/json"))
          | inl x => inl x
          end)).
Proof.
  split; [reflexivity |].
  apply create_token_contract. reflexivity.
Defined.

(** C8, counterexample: the body [{"email": 5, "password": "pw"}] violates
    the create-token schema, yet the 400 error's context holds no required
    field and no property: the reported error comes from the [email]
    subschema, whose [required] and [properties] are absent. *)
Lemma create_token_field_error_context_counterexample :
  sample_json_loads "email-not-a-string" =
    inr (JObj [("email", JNum 5); ("password", JStr "pw")]) /\
  validate (JObj [("email", JNum 5); ("password", JStr "pw")]) CREATE_TOKEN_SCHEMA <> None /\
  create_token sample_env sample_settings (sample_request [] "email-not-a-string") =
    ([], inl (ErtisError "errors.validationError" "instance is not of type 'string'" 400
                (Some [("required", JArr []); ("properties", JObj [])]))).
Proof.
  split; [reflexivity |]. split; [vm_compute; discriminate | vm_compute; reflexivity].
Qed.

(** ** Further properties of the code *)

Lemma string_append_cancel_l (r s1 s2 : string) :
  (r ++ s1)%string = (r ++ s2)%string -> s1 = s2.
Proof.
  induction r as [| c r IH]; simpl; [auto |]. intros H. injection H. exact IH.
Qed.

Lemma string_length_append (r s : string) :
  String.length (r ++ s) = (String.length r + String.length s)%nat.
Proof. induction r as [| c r IH]; simpl; [reflexivity | rewrite IH; reflexivity]. Qed.

Lemma NoDup_map_filter {A B} (f : A -> B) (keep : A -> bool) (xs : list A)
  (Hnd : NoDup (map f xs)) : NoDup (map f (filter keep xs)).
Proof.
  induction xs as [| x xs IH]; simpl in *; [constructor |].
  inversion Hnd as [| y ys Hnin Hnd']; subst.
  destruct (keep x); simpl; [| auto].
  constructor; [| auto].
  intros Hin. apply Hnin. apply in_map_iff in Hin as (z & Hz & Hzin).
  apply filter_In in Hzin as [Hzin _]. rewrite <- Hz. apply in_map. exact Hzin.
Qed.

Lemma generate_endpoints_filter api :
  generate_endpoints api =
    filter (fun r => in_methods api (method_name (route_view r))) (all_routes api).
Proof.
  unfold generate_endpoints, all_routes, generate_urls. simpl.
  destruct (in_methods api "QUERY"), (in_methods api "GET"), (in_methods api "POST"),
           (in_methods api "PUT"), (in_methods api "DELETE"); reflexivity.
Qed.

(** [generate_endpoints] never registers two routes under one view name
    (the names [rename] gives) nor two views for one URL and HTTP method,
    whatever [methods] and the prefix are. *)
Theorem generate_endpoints_routes_distinct api :
  NoDup (map route_name (generate_endpoints api)) /\
  NoDup (map (fun r => (route_url r, route_http_method r)) (generate_endpoints api)).
Proof.
  rewrite generate_endpoints_filter. split; apply NoDup_map_filter;
    unfold all_routes, generate_urls; simpl.
  - repeat constructor; simpl;
      intros H; repeat destruct H as [H | H]; try contradiction;
      apply string_append_cancel_l in H; discriminate.
  - assert (Hq : (endpoint_prefix api ++ "/_query")%string <> endpoint_prefix api).
    { intros H. apply (f_equal String.length) in H.
      rewrite string_length_append in H. simpl in H. lia. }
    repeat constructor; simpl;
      intros H; repeat destruct H as [H | H]; try contradiction;
      injection H; intros; try discriminate; apply Hq; symmetry; assumption.
Qed.

Lemma list_ascii_of_string_app (a b : string) :
  list_ascii_of_string (a ++ b) = list_ascii_of_string a ++ list_ascii_of_string b.
Proof. induction a as [| c a IH]; simpl; [reflexivity | rewrite IH; reflexivity]. Qed.

Lemma split_chars_length sep cur s :
  length (split_chars sep cur s) = S (count_occ ascii_dec s sep).
Proof.
  revert cur. induction s as [| c s IH]; intros cur; simpl; [reflexivity |].
  destruct (Ascii.eqb_spec c sep) as [-> | Hne].
  - destruct (ascii_dec sep sep) as [_ | []]; [| reflexivity]. simpl. rewrite IH. reflexivity.
  - destruct (ascii_dec c sep) as [Heq | _]; [contradiction |]. apply IH.
Qed.

Lemma split_chars_no_sep sep cur s :
  ~ In sep s -> split_chars sep cur s = [rev cur ++ s].
Proof.
  revert cur. induction s as [| c s IH]; intros cur Hnin; simpl.
  - rewrite app_nil_r. reflexivity.
  - destruct (Ascii.eqb_spec c sep) as [-> | Hne].
    + exfalso. apply Hnin. left. reflexivity.
    + rewrite IH; [simpl; rewrite <- app_assoc; reflexivity |].
      intros H. apply Hnin. right. exact H.
Qed.

Lemma split_chars_one_sep sep cur a b :
  ~ In sep a -> ~ In sep b ->
  split_chars sep cur (a ++ sep :: b) = [rev cur ++ a; b].
Proof.
  revert cur. induction a as [| c a IH]; intros cur Ha Hb; simpl.
  - rewrite Ascii.eqb_refl, app_nil_r, split_chars_no_sep by exact Hb. reflexivity.
  - destruct (Ascii.eqb_spec c sep) as [-> | Hne].
    + exfalso. apply Ha. left. reflexivity.
    + rewrite IH; [simpl; rewrite <- app_assoc; reflexivity | | exact Hb].
      intros H. apply Ha. right. exact H.
Qed.

(** The auth gate of a non-anonymous view, read as a rule on the header
    text: a non-empty header is refused with the 401
    errors.invalidBearerTokenUsage unless it contains exactly one space
    character; a header [scheme ++ " " ++ token] with no other space
    (either side may be empty) makes the view pass [token] to the security
    manager's [load_user] as its first call. *)
Theorem auth_gate_single_space_rule E S api k req rid :
  allow_to_anonymous api = false ->
  (forall h, headers_get (req_headers req) "Authorization" = Some h ->
   h <> EmptyString -> count_occ ascii_dec (list_ascii_of_string h) " "%char <> 1%nat ->
   handle E S api k req rid =
     ([], inl (ErtisError "errors.invalidBearerTokenUsage"
                 "Bearer token usage is invalid" 401 None))) /\
  (forall scheme token,
   headers_get (req_headers req) "Authorization" = Some (scheme ++ " " ++ token)%string ->
   ~ In " "%char (list_ascii_of_string scheme) -> ~ In " "%char (list_ascii_of_string token) ->
   exists rest, fst (handle E S api k req rid) = EvLoadUser (JStr token) :: rest).
Proof.
  intros Hanon.
  destruct (handle_starts_with_auth E S api k req rid Hanon) as [G ->].
  unfold auth, ensure_token_provided. cbv zeta. split.
  - intros h H Hne Hcnt. rewrite H.
    apply String.eqb_neq in Hne. rewrite Hne.
    assert (Hlen : Nat.eqb (length (py_split " "%char h)) 2 = false).
    { apply Nat.eqb_neq. unfold py_split. rewrite length_map, split_chars_length. lia. }
    rewrite Hlen. reflexivity.
  - intros scheme token H Hs Ht. rewrite H.
    assert (Hsplit : py_split " "%char (scheme ++ " " ++ token) = [scheme; token]).
    { unfold py_split. rewrite list_ascii_of_string_app. simpl.
      rewrite split_chars_one_sep by assumption. simpl.
      rewrite !string_of_list_ascii_of_string. reflexivity. }
    assert (Hne : String.eqb (scheme ++ " " ++ token) EmptyString = false).
    { destruct scheme; reflexivity. }
    rewrite Hne, Hsplit. simpl negb. cbv iota. simpl nth.
    unfold call_api_load_user.
    destruct (api_load_user E _ _ _) as [e | u].
    + exists []. reflexivity.
    + exists (fst (G u)). rewrite bind_inr. reflexivity.
Qed.

Lemma auth_gate_single_space_rule_witness :
  allow_to_anonymous (sample_api false ["GET"]) = false /\
  headers_get (req_headers (sample_request [("Authorization", "Bearer good")] EmptyString))
    "Authorization" = Some ("Bearer" ++ " " ++ "good")%string /\
  ~ In " "%char (list_ascii_of_string "Bearer") /\
  ~ In " "%char (list_ascii_of_string "good") /\
  exists rest,
    fst (handle sample_env sample_settings (sample_api false ["GET"]) ERead
           (sample_request [("Authorization", "Bearer good")] EmptyString) "42") =
    EvLoadUser (JStr "good") :: rest.
Proof.
  assert (Hs : ~ In " "%char (list_ascii_of_string "Bearer")).
  { simpl. intros H. repeat destruct H as [H | H]; try discriminate; contradiction. }
  assert (Ht : ~ In " "%char (list_ascii_of_string "good")).
  { simpl. intros H. repeat destruct H as [H | H]; try discriminate; contradiction. }
  split; [reflexivity |]. split; [reflexivity |]. split; [exact Hs |]. split; [exact Ht |].
  apply (proj2 (auth_gate_single_space_rule sample_env sample_settings
                  (sample_api false ["GET"]) ERead
                  (sample_request [("Authorization", "Bearer good")] EmptyString) "42"
                  eq_refl) "Bearer" "good");
    [reflexivity | exact Hs | exact Ht].
Defined.

(** [refresh_token] on a JSON object body: a missing or falsy [token]
    fails with the 400 errors.tokenRequired before any call; otherwise the
    token goes to the security manager's [load_user], whose error
    propagates, and the User it returns goes to
    [ErtisTokenService.refresh_token], whose new token comes back as
    [{"token": new_token}] with status 201 and mimetype application/json. *)
Theorem refresh_token_object_body E S req kvs :
  json_loads E (req_data req) = inr (JObj kvs) ->
  (py_truthy (match assoc_get "token" kvs with Some t => t | None => JNull end) = false ->
   refresh_token E S req =
     ([], inl (ErtisError "errors.tokenRequired" "Token is required" 400 None))) /\
  (forall token, assoc_get "token" kvs = Some token -> py_truthy token = true ->
   refresh_token E S req =
     match tokens_load_user E token (application_secret S) (verify_token S) with
     | inl e => ([EvLoadUser token], inl e)
     | inr user =>
         ([EvLoadUser token; EvRefreshToken user],
          match refresh_token_svc E user (application_secret S) (token_ttl S) with
          | inl e => inl e
          | inr new_token =>
              inr (mk_response (PDumps (JObj [("token", new_token)])) 201
                     (Some "application/json"))
          end)
     end).
Proof.
  intros H. unfold refresh_token, lift. rewrite H. split.
  - intros Hf. simpl. rewrite Hf. reflexivity.
  - intros token Ht Htr. simpl. rewrite Ht, Htr. simpl.
    unfold call_tokens_load_user, call_refresh_token.
    destruct (tokens_load_user E token _ _) as [e | user]; [reflexivity |].
    simpl. destruct (refresh_token_svc E user _ _); reflexivity.
Qed.

Lemma refresh_token_object_body_witness :
  json_loads sample_env (req_data (sample_request [] "refresh-body")) =
    inr (JObj [("token", JStr "good")]) /\
  assoc_get "token" [("token", JStr "good")] = Some (JStr "good") /\
  py_truthy (JStr "good") = true /\
  refresh_token sample_env sample_settings (sample_request [] "refresh-body") =
    ([EvLoadUser (JStr "good"); EvRefreshToken alice],
     inr (mk_response (PDumps (JObj [("token", JStr "refreshed-token")])) 201
            (Some "application/json"))).
Proof.
  split; [reflexivity |]. split; [reflexivity |]. split; [reflexivity |].
  rewrite (proj2 (refresh_token_object_body sample_env sample_settings
                    (sample_request [] "refresh-body") [("token", JStr "good")] eq_refl)
                 (JStr "good") eq_refl eq_refl).
  reflexivity.
Defined.

(** A view of an anonymous resource never calls the security manager. *)
Theorem anonymous_views_skip_security_manager E S api k req rid :
  allow_to_anonymous api = true ->
  forallb (fun ev => match ev with EvLoadUser _ => false | _ => true end)
    (fst (handle E S api k req rid)) = true.
Proof.
  intros Hanon. destruct k; unfold_views; rewrite Hanon; simpl; try reflexivity.
  - destruct (parse_query E req) as [? | [[[[? ?] ?] ?] ?]]; simpl; [reflexivity |].
    destruct (service E _ _); reflexivity.
  - destruct (service E _ _); reflexivity.
  - destruct (service E _ _); reflexivity.
Qed.

Lemma anonymous_views_skip_security_manager_witness :
  allow_to_anonymous (sample_api true ["GET"]) = true /\
  forallb (fun ev => match ev with EvLoadUser _ => false | _ => true end)
    (fst (handle sample_env sample_settings (sample_api true ["GET"]) ERead
            (sample_request [("Authorization", "Bearer good")] EmptyString) "42")) = true.
Proof.
  split; [reflexivity |]. apply anonymous_views_skip_security_manager. reflexivity.
Defined.

(** Every view, anonymous or not, calls the resource service at most once,
    and only the method of that view: [filter] for QUERY, [get] for GET,
    [post] for POST, [put] for PUT, [delete] for DELETE. *)
Theorem view_calls_only_its_service E S api k req rid :
  filter is_service_event (fst (handle E S api k req rid)) = [] \/
  exists args,
    filter is_service_event (fst (handle E S api k req rid)) = [EvService (service_of k) args].
Proof.
  destruct k; unfold_views; destruct (allow_to_anonymous api); simpl negb; cbv iota;
    try (destruct (ensure_token_provided_shape E req (resource_name api)
                     (application_secret S) (verify_token S)) as [[e He] | [tok Htok]];
         unfold auth; [rewrite He | rewrite Htok;
                       destruct (api_load_user E tok _ _) as [? | ?]]);
    simpl;
    try (destruct (parse_query E req) as [? | [[[[? ?] ?] ?] ?]]; simpl);
    try (destruct (service E _ _); simpl);
    eauto.
Qed.

(** The QUERY view calls the resource service only once
    [query_helpers.parse] has succeeded: an error of [parse] propagates
    unchanged, after the auth gate when there is one. *)
Theorem query_parse_error_propagates E S api req rid e :
  parse_query E req = inl e ->
  (allow_to_anonymous api = true -> handle E S api EQuery req rid = ([], inl e)) /\
  (forall tr u, allow_to_anonymous api = false -> auth E S api req = (tr, inr u) ->
   handle E S api EQuery req rid = (tr, inl e)).
Proof.
  intros Hp. split.
  - intros Hanon. unfold_views. rewrite Hanon, Hp. reflexivity.
  - intros tr u Hanon Hauth. unfold_views. rewrite Hanon. simpl negb. cbv iota.
    rewrite Hauth, Hp. simpl. rewrite !app_nil_r. reflexivity.
Qed.

Lemma query_parse_error_propagates_witness :
  parse_query failing_env (sample_request [] EmptyString) =
    inl (ExternalError "invalid where clause") /\
  handle failing_env sample_settings (sample_api true ["QUERY"]) EQuery
    (sample_request [] EmptyString) EmptyString =
    ([], inl (ExternalError "invalid where clause")).
Proof.
  split; [reflexivity |].
  apply (proj1 (query_parse_error_propagates failing_env sample_settings
                  (sample_api true ["QUERY"]) (sample_request [] EmptyString) EmptyString
                  (ExternalError "invalid where clause") eq_refl)).
  reflexivity.
Defined.

(** No view catches an error of the resource service: when the service
    call a view made raised, the view raises that same error. *)
Theorem view_service_error_propagates E S api k req rid tr r m args e :
  handle E S api k req rid = (tr, r) ->
  In (EvService m args) tr -> service E m args = inl e -> r = inl e.
Proof.
  intros H Hin Hs. revert H.
  destruct k; unfold_views; destruct (allow_to_anonymous api); simpl negb; cbv iota;
    try (destruct (ensure_token_provided_shape E req (resource_name api)
                     (application_secret S) (verify_token S)) as [[e0 He] | [tok Htok]];
         unfold auth; [rewrite He | rewrite Htok;
                       destruct (api_load_user E tok _ _) as [? | ?]]);
    simpl;
    try (destruct (parse_query E req) as [? | [[[[? ?] ?] ?] ?]]; simpl);
    try (match goal with
         | |- context [service E ?m0 ?args0] => destruct (service E m0 args0) eqn:Hsv
         end; simpl);
    intros H'; injection H' as <- <-; simpl in Hin;
    repeat destruct Hin as [Hin | Hin]; try discriminate; try contradiction;
    injection Hin as <- <-; congruence.
Qed.

Lemma view_service_error_propagates_witness :
  handle failing_env sample_settings (sample_api true ["GET"]) ERead
    (sample_request [] EmptyString) "42" =
    ([EvService SGet [Kw "_id" (JStr "42"); Kw "resource_name" (JStr "examples")]],
     inl (ExternalError "resource not found")) /\
  In (EvService SGet [Kw "_id" (JStr "42"); Kw "resource_name" (JStr "examples")])
    [EvService SGet [Kw "_id" (JStr "42"); Kw "resource_name" (JStr "examples")]] /\
  service failing_env SGet [Kw "_id" (JStr "42"); Kw "resource_name" (JStr "examples")] =
    inl (ExternalError "resource not found") /\
  @inl exn response (ExternalError "resource not found") = inl (ExternalError "resource not found").
Proof.
  split; [reflexivity |]. split; [left; reflexivity |]. split; [reflexivity |].
  apply (view_service_error_propagates failing_env sample_settings (sample_api true ["GET"])
           ERead (sample_request [] EmptyString) "42"
           [EvService SGet [Kw "_id" (JStr "42"); Kw "resource_name" (JStr "examples")]]
           (inl (ExternalError "resource not found")) SGet
           [Kw "_id" (JStr "42"); Kw "resource_name" (JStr "examples")]);
    [reflexivity | left; reflexivity | reflexivity].
Defined.
